(** * Event monitor: rising-edge counting and periodic reporting

    A shallow embedding of [event_monitor.c] (the edge-detection callback,
    the reporter task and the initialisation entry point) together with the
    test doubles of [test_event_monitor.c], followed by the properties the
    specification states about them.

    Conventions.  A [uint32_t] is a [Z] in [0, 2^32); every operation that
    can leave that range in C has its wrap-around written out with [uint32].
    [unsigned int] is taken to be 32 bits wide, as the test suite assumes
    when it prints [uint32_t] values with [%u].  The globals of the
    translation unit and the state of the collaborators live in one record,
    [world], that every function threads through the state monad [M]. *)

From Stdlib Require Import ZArith List Lia Bool.
Import ListNotations.
Local Open Scope Z_scope.

(** ** Machine integers *)

Module Word32.

Definition modulus : Z := 2 ^ 32.

(** Reduction of a mathematical integer to its [uint32_t] value. *)
Definition uint32 (x : Z) : Z := x mod modulus.

Definition is_uint32 (x : Z) : Prop := 0 <= x < modulus.

(** [~x] on a 32-bit unsigned operand. *)
Definition not32 (x : Z) : Z := uint32 (Z.lnot x).

(** [x << n] on a 32-bit unsigned operand. *)
Definition shl32 (x n : Z) : Z := uint32 (Z.shiftl x n).

(** [x + y] on 32-bit unsigned operands. *)
Definition add32 (x y : Z) : Z := uint32 (x + y).

(** The population count of a non-negative integer, read off its binary
    representation: the count an intrinsic such as [__builtin_popcount]
    returns. *)
Fixpoint popcount_pos (p : positive) : nat :=
  match p with
  | xH => 1
  | xO q => popcount_pos q
  | xI q => S (popcount_pos q)
  end.

Definition popcount (x : Z) : Z :=
  match x with
  | Zpos p => Z.of_nat (popcount_pos p)
  | _ => 0
  end.

End Word32.
Import Word32.

(** ** The collaborators and the state *)

(** The functions of the component that are passed around as pointers. *)
Inductive callback_fn : Type := Gpio_change_callback.
Inductive task_fn : Type := Monitor_task.

(** The calls the component makes to its collaborators, in the order it
    makes them: the RTOS ([rtos_api.h]), the GPIO HAL ([gpio_hal.h]) and the
    consumer ([report_event_count]). *)
Inductive call : Type :=
| Call_rtos_mutex_lock
| Call_rtos_mutex_unlock
| Call_rtos_task_delay_ms (ms : Z)
| Call_rtos_task_create (task_fn_ptr : task_fn)
| Call_gpio_register_callback (callback : callback_fn)
| Call_report_event_count (count : Z).

(** Modelled from the spec: [gpio_mask_t] is declared in [gpio_hal.h], which
    is not part of the sources; section 3 of the specification makes a Sample
    a 32-bit bitfield, so [gpio_mask_t] is taken to be [uint32_t]. *)
Definition gpio_mask_t_bits : Z := 32.

Record world : Type := mkWorld {
  (* event_monitor.c *)
  event_count : Z;                        (* volatile uint32_t event_count *)
  monitored_mask : Z;                     (* static uint32_t monitored_mask *)
  previous_state : Z;                     (* static gpio_mask_t previous_state *)
  (* the input source, as the test double keeps it *)
  simulated_state : Z;                    (* static gpio_mask_t simulated_state *)
  static_callback : option callback_fn;   (* static void ( *static_callback)(gpio_mask_t) *)
  (* what the collaborators were asked to do, oldest call first *)
  calls : list call
}.

(** The state of the program when [main] starts: every global holds its
    initialiser. *)
Definition boot_world : world :=
  mkWorld 0 0 0 0 None [].

(** ** The state monad *)

Definition M (A : Type) : Type := world -> A * world.

Definition ret {A : Type} (a : A) : M A := fun w => (a, w).

Definition bind {A B : Type} (m : M A) (k : A -> M B) : M B :=
  fun w => k (fst (m w)) (snd (m w)).

Definition exec {A : Type} (m : M A) (w : world) : world := snd (m w).
Definition eval {A : Type} (m : M A) (w : world) : A := fst (m w).

Declare Scope monad_scope.
Delimit Scope monad_scope with monad.
Notation "x <- m ;; k" := (bind m (fun x => k))
  (at level 61, m at next level, right associativity) : monad_scope.
Notation "m ;; k" := (bind m (fun _ => k))
  (at level 61, right associativity) : monad_scope.
Local Open Scope monad_scope.

(** Reads and writes of the globals. *)
Definition load_event_count : M Z := fun w => (event_count w, w).
Definition load_monitored_mask : M Z := fun w => (monitored_mask w, w).
Definition load_previous_state : M Z := fun w => (previous_state w, w).
Definition load_static_callback : M (option callback_fn) :=
  fun w => (static_callback w, w).

Definition store_event_count (v : Z) : M unit := fun w =>
  (tt, mkWorld v (monitored_mask w) (previous_state w)
               (simulated_state w) (static_callback w) (calls w)).
Definition store_monitored_mask (v : Z) : M unit := fun w =>
  (tt, mkWorld (event_count w) v (previous_state w)
               (simulated_state w) (static_callback w) (calls w)).
Definition store_previous_state (v : Z) : M unit := fun w =>
  (tt, mkWorld (event_count w) (monitored_mask w) v
               (simulated_state w) (static_callback w) (calls w)).
Definition store_simulated_state (v : Z) : M unit := fun w =>
  (tt, mkWorld (event_count w) (monitored_mask w) (previous_state w)
               v (static_callback w) (calls w)).
Definition store_static_callback (v : option callback_fn) : M unit := fun w =>
  (tt, mkWorld (event_count w) (monitored_mask w) (previous_state w)
               (simulated_state w) v (calls w)).

(** Appends a call to the record of calls. *)
Definition emit (c : call) : M unit := fun w =>
  (tt, mkWorld (event_count w) (monitored_mask w) (previous_state w)
               (simulated_state w) (static_callback w) (calls w ++ [c])).

(** ** The collaborators' entry points

    The HAL and RTOS functions behave as the test doubles of
    [test_event_monitor.c] do; in addition each call is recorded, so that
    the order and the arguments of the calls can be observed. *)

(* gpio_mask_t gpio_read_input(void) { return simulated_state; } *)
Definition gpio_read_input : M Z := fun w => (simulated_state w, w).

(* void gpio_register_callback(cb) { static_callback = cb; } *)
Definition gpio_register_callback (cb : callback_fn) : M unit :=
  store_static_callback (Some cb) ;;
  emit (Call_gpio_register_callback cb).

Definition rtos_mutex_lock : M unit := emit Call_rtos_mutex_lock.
Definition rtos_mutex_unlock : M unit := emit Call_rtos_mutex_unlock.
Definition rtos_task_delay_ms (ms : Z) : M unit := emit (Call_rtos_task_delay_ms ms).
Definition rtos_task_create (fn : task_fn) : M unit := emit (Call_rtos_task_create fn).
Definition report_event_count (count : Z) : M unit := emit (Call_report_event_count count).

(** ** event_monitor.c *)

(** [for (i = lo; i < lo + n; ++i) body(i)]. *)
Fixpoint for_upto (n : nat) (i : Z) (body : Z -> M unit) : M unit :=
  match n with
  | O => ret tt
  | S n' => body i ;; for_upto n' (i + 1) body
  end.

(** [for (i = lo; i < hi; ++i) body(i)]. *)
Definition for_range (lo hi : Z) (body : Z -> M unit) : M unit :=
  for_upto (Z.to_nat (hi - lo)) lo body.

(** [++event_count] on the [volatile uint32_t]: one read, one write. *)
Definition incr_event_count : M unit :=
  c <- load_event_count ;;
  store_event_count (add32 c 1).

(** [(~previous_state & new_state) & monitored_mask]. *)
Definition rising_edges_of (prev new_state mask : Z) : Z :=
  Z.land (Z.land (not32 prev) new_state) mask.

(** The body of the critical section of the callback: the scan of the 32
    bit positions. *)
Definition count_rising_edges (rising_edges : Z) : M unit :=
  for_range 0 32 (fun i =>
    if negb (Z.land rising_edges (shl32 1 i) =? 0)
    then incr_event_count
    else ret tt).

Definition gpio_change_callback (new_state : Z) : M unit :=
  prev <- load_previous_state ;;
  mask <- load_monitored_mask ;;
  let rising_edges := rising_edges_of prev new_state mask in
  store_previous_state new_state ;;
  if negb (rising_edges =? 0)
  then
    rtos_mutex_lock ;;
    count_rising_edges rising_edges ;;
    rtos_mutex_unlock
  else ret tt.

(** One turn of the [while (1)] loop of [monitor_task], in its three
    phases: the sleep, the critical section and the report.  The local
    variable [count] is the value the critical section returns. *)
Definition monitor_task_sleep : M unit :=
  rtos_task_delay_ms 1000.

Definition monitor_task_drain : M Z :=
  rtos_mutex_lock ;;
  count <- load_event_count ;;
  store_event_count 0 ;;
  rtos_mutex_unlock ;;
  ret count.

Definition monitor_task_report (count : Z) : M unit :=
  report_event_count count.

Definition monitor_task_iteration : M unit :=
  monitor_task_sleep ;;
  count <- monitor_task_drain ;;
  monitor_task_report count.

(** The first [periods] turns of [monitor_task]; the task itself never
    returns. *)
Fixpoint monitor_task (periods : nat) : M unit :=
  match periods with
  | O => ret tt
  | S n => monitor_task_iteration ;; monitor_task n
  end.

Definition event_monitor_init (mask : Z) : M unit :=
  store_monitored_mask mask ;;
  s <- gpio_read_input ;;
  store_previous_state s ;;
  gpio_register_callback Gpio_change_callback ;;
  rtos_task_create Monitor_task.

(** ** test_event_monitor.c *)

Definition call_callback (cb : callback_fn) : Z -> M unit :=
  match cb with
  | Gpio_change_callback => gpio_change_callback
  end.

Definition trigger_event_report_for_test : M unit :=
  rtos_mutex_lock ;;
  count <- load_event_count ;;
  store_event_count 0 ;;
  rtos_mutex_unlock ;;
  report_event_count count.

Definition simulate_gpio_change (new_state : Z) : M unit :=
  store_simulated_state new_state ;;
  cb <- load_static_callback ;;
  match cb with
  | Some f => call_callback f new_state
  | None => ret tt
  end.

(** The values handed to [report_event_count], oldest first. *)
Fixpoint reported_values (cs : list call) : list Z :=
  match cs with
  | [] => []
  | Call_report_event_count n :: cs' => n :: reported_values cs'
  | _ :: cs' => reported_values cs'
  end.

Definition sum_list (l : list Z) : Z := fold_right Z.add 0 l.

(** [total_events_counted], the accumulator of the test's
    [report_event_count]. *)
Definition total_events_counted (w : world) : Z :=
  fold_left add32 (reported_values (calls w)) 0.

(** The sum of everything reported so far, as a mathematical integer. *)
Definition total_reported (w : world) : Z :=
  sum_list (reported_values (calls w)).

(** A test of the suite: initialise with [mask], deliver the samples, drain. *)
Definition scenario (mask : Z) (samples : list Z) : M unit :=
  event_monitor_init mask ;;
  fold_right (fun x k => simulate_gpio_change x ;; k) (ret tt) samples ;;
  trigger_event_report_for_test.

(** ** Interleavings of the two contexts

    The mutex makes the critical section of the callback and that of the
    task indivisible with respect to each other, and the part of the
    callback outside its critical section touches only [previous_state],
    which the task never reads.  An interleaving of the two contexts is
    therefore a sequence of whole notifications and whole drains. *)

Inductive action : Type :=
| Notify (new_state : Z)
| Drain.

Definition step (a : action) : M unit :=
  match a with
  | Notify x => gpio_change_callback x
  | Drain => trigger_event_report_for_test
  end.

Fixpoint run (acts : list action) : M unit :=
  match acts with
  | [] => ret tt
  | a :: acts' => step a ;; run acts'
  end.

Definition notify_all (samples : list Z) : M unit :=
  run (map Notify samples).

(** The event count [c_i] each notification of an interleaving contributes,
    given the previous sample and the mask it starts from: the population
    count of the bits that rose. *)
Fixpoint contributions (acts : list action) (prev mask : Z) : list Z :=
  match acts with
  | [] => []
  | Notify x :: acts' =>
      popcount (rising_edges_of prev x mask) :: contributions acts' x mask
  | Drain :: acts' => contributions acts' prev mask
  end.

(** No notification of the interleaving pushes the counter, started at [c],
    past [2^32 - 1] before the next drain takes it back to zero. *)
Fixpoint no_overflow (acts : list action) (c prev mask : Z) : bool :=
  match acts with
  | [] => true
  | Notify x :: acts' =>
      let c' := c + popcount (rising_edges_of prev x mask) in
      (c' <? modulus) && no_overflow acts' c' x mask
  | Drain :: acts' => no_overflow acts' 0 prev mask
  end.

(** [k] times: every line rises, then every line falls. *)
Fixpoint all_lines_toggle (k : nat) : list Z :=
  match k with
  | O => []
  | S k' => 0xFFFFFFFF :: 0 :: all_lines_toggle k'
  end.

(** ** The single-step alternative to the scan

    Following the specification's words: increment the counter by the
    population count of [rising] in a single step. *)
Definition count_rising_edges_popcount (rising_edges : Z) : M unit :=
  c <- load_event_count ;;
  store_event_count (add32 c (popcount rising_edges)).

(** ** Vocabulary of the statements *)

(** The number of positions in [[i, i + n)] at which [x] has a 1. *)
Fixpoint count_bits (n : nat) (i : Z) (x : Z) : nat :=
  match n with
  | O => O
  | S n' => (if Z.testbit x i then 1 else 0) + count_bits n' (i + 1) x
  end.

(** [world] with its counter replaced. *)
Definition with_event_count (v : Z) (w : world) : world :=
  exec (store_event_count v) w.

(** [k] executions of [++event_count], on the counter alone. *)
Definition incr_times (k : nat) (c : Z) : Z :=
  Nat.iter k (fun c' => add32 c' 1) c.

(** The calls one notification makes: the mutex is taken only when some
    monitored bit rose. *)
Definition callback_calls (rising_edges : Z) : list call :=
  if rising_edges =? 0 then []
  else [Call_rtos_mutex_lock; Call_rtos_mutex_unlock].

(** The calls [n] periods of the task make when no notification arrives
    in between and the counter starts at [c]. *)
Fixpoint period_calls (c : Z) (n : nat) : list call :=
  match n with
  | O => []
  | S n' =>
      [Call_rtos_task_delay_ms 1000; Call_rtos_mutex_lock;
       Call_rtos_mutex_unlock; Call_report_event_count c]
      ++ period_calls 0 n'
  end.

(** ** Sequences of calls into the component

    Everything that can be asked of the component and of the test doubles
    around it, so that statements can range over arbitrary call sequences. *)

Inductive op : Type :=
| Op_init (mask : Z)              (* event_monitor_init(mask) *)
| Op_gpio_change (new_state : Z)  (* simulate_gpio_change(new_state) *)
| Op_callback (new_state : Z)     (* gpio_change_callback(new_state) *)
| Op_period                       (* one turn of the loop of monitor_task *)
| Op_report.                      (* trigger_event_report_for_test() *)

Definition do_op (o : op) : M unit :=
  match o with
  | Op_init mask => event_monitor_init mask
  | Op_gpio_change x => simulate_gpio_change x
  | Op_callback x => gpio_change_callback x
  | Op_period => monitor_task_iteration
  | Op_report => trigger_event_report_for_test
  end.

Fixpoint do_ops (os : list op) : M unit :=
  match os with
  | [] => ret tt
  | o :: os' => do_op o ;; do_ops os'
  end.

Definition is_init (o : op) : bool :=
  match o with Op_init _ => true | _ => false end.

Definition is_direct_callback (o : op) : bool :=
  match o with Op_callback _ => true | _ => false end.

Definition is_notification (o : op) : bool :=
  match o with Op_gpio_change _ | Op_callback _ => true | _ => false end.

(** Whether the mutex is held after the calls [cs], when it was [held]
    before them; [None] when the calls break the locking discipline: a lock
    taken while held, an unlock while free, or any other call to a
    collaborator (a delay, a report, a registration, a task creation) made
    while the mutex is held. *)
Fixpoint mutex_after (held : bool) (cs : list call) : option bool :=
  match cs with
  | [] => Some held
  | Call_rtos_mutex_lock :: cs' =>
      if held then None else mutex_after true cs'
  | Call_rtos_mutex_unlock :: cs' =>
      if held then mutex_after false cs' else None
  | _ :: cs' =>
      if held then None else mutex_after false cs'
  end.

(** The number of calls of [rtos_task_create] among [cs]. *)
Fixpoint tasks_created (cs : list call) : nat :=
  match cs with
  | [] => O
  | Call_rtos_task_create _ :: cs' => S (tasks_created cs')
  | _ :: cs' => tasks_created cs'
  end.

(** ** The test program

    The state of [test_event_monitor.c] beyond the doubles: the accumulator
    of its [report_event_count] and the two counters of
    [check_test_result].  The [printf] calls are left out.  The counters are
    [int]s; their increments are modelled without wrap-around, signed
    overflow being undefined, and the statements about them assume they are
    below [INT_MAX]. *)

Module Suite.

Record suite : Type := mkSuite {
  monitor : world;
  total_events_counted : Z;   (* static uint32_t total_events_counted *)
  tests_passed : Z;           (* static int tests_passed *)
  tests_failed : Z            (* static int tests_failed *)
}.

Definition boot_suite : suite := mkSuite boot_world 0 0 0.

Definition INT_MAX : Z := 2 ^ 31 - 1.

(** Runs a piece of the component or of the doubles on the monitor's part
    of the state. *)
Definition on_monitor (m : M unit) (s : suite) : suite :=
  mkSuite (exec m (monitor s)) (total_events_counted s)
          (tests_passed s) (tests_failed s).

(* void report_event_count(uint32_t count) { total_events_counted += count; ... } *)
Definition report_event_count (count : Z) (s : suite) : suite :=
  mkSuite (exec (report_event_count count) (monitor s))
          (add32 (total_events_counted s) count)
          (tests_passed s) (tests_failed s).

Definition trigger_event_report_for_test (s : suite) : suite :=
  let s1 := on_monitor rtos_mutex_lock s in
  let count := event_count (monitor s1) in
  let s2 := on_monitor (store_event_count 0) s1 in
  let s3 := on_monitor rtos_mutex_unlock s2 in
  report_event_count count s3.

Definition simulate_gpio_change (new_state : Z) (s : suite) : suite :=
  on_monitor (simulate_gpio_change new_state) s.

Definition reset_test_state (s : suite) : suite :=
  let s1 := on_monitor (store_simulated_state 0) s in
  let s2 := mkSuite (monitor s1) 0 (tests_passed s1) (tests_failed s1) in
  let s3 := on_monitor (store_static_callback None) s2 in
  let s4 := on_monitor rtos_mutex_lock s3 in
  let s5 := on_monitor (store_event_count 0) s4 in
  on_monitor rtos_mutex_unlock s5.

Definition check_test_result (expected actual : Z) (s : suite) : suite :=
  if expected =? actual
  then mkSuite (monitor s) (total_events_counted s)
               (tests_passed s + 1) (tests_failed s)
  else mkSuite (monitor s) (total_events_counted s)
               (tests_passed s) (tests_failed s + 1).

(** The shape the six test functions share: reset, initialise with
    [mask], deliver the samples in order, drain, compare the total. *)
Definition run_test (mask : Z) (samples : list Z) (expected : Z)
    (s : suite) : suite :=
  let s1 := reset_test_state s in
  let s2 := on_monitor (event_monitor_init mask) s1 in
  let s3 := fold_left (fun t x => simulate_gpio_change x t) samples s2 in
  let s4 := trigger_event_report_for_test s3 in
  check_test_result expected (total_events_counted s4) s4.

Definition test_rising_edge_detection : suite -> suite :=
  run_test 0x0F [0x00; 0x03; 0x07; 0x07; 0x05; 0x0F] 5.
Definition test_mask_filtering : suite -> suite :=
  run_test 0x05 [0x00; 0x0F] 2.
Definition test_no_monitored_pins : suite -> suite :=
  run_test 0x00 [0x00; 0xFF] 0.
Definition test_edge_transition_logic : suite -> suite :=
  run_test 0xFF [0x00; 0x01; 0x03; 0x01; 0x03] 3.
Definition test_multiple_bits_simultaneous : suite -> suite :=
  run_test 0xFF [0x00; 0xFF] 8.
Definition test_partial_mask_with_mixed_transitions : suite -> suite :=
  run_test 0xF0 [0x00; 0x0F; 0xFF; 0x0F; 0xFF] 8.

(** [main]: the six tests in order; the exit status and the final state. *)
Definition main (s : suite) : Z * suite :=
  let s1 := test_rising_edge_detection s in
  let s2 := test_mask_filtering s1 in
  let s3 := test_no_monitored_pins s2 in
  let s4 := test_edge_transition_logic s3 in
  let s5 := test_multiple_bits_simultaneous s4 in
  let s6 := test_partial_mask_with_mixed_transitions s5 in
  (if tests_failed s6 =? 0 then 0 else 1, s6).

End Suite.

(** Every sample of [xs] only clears bits of the one before it, [prev]
    being the one before the first. *)
Fixpoint only_falling (prev : Z) (xs : list Z) : bool :=
  match xs with
  | [] => true
  | x :: xs' => (Z.lor prev x =? prev) && only_falling x xs'
  end.

(** The handler is in place and the previous sample is the input source's
    current state. *)
Definition tracking (w : world) : Prop :=
  static_callback w = Some Gpio_change_callback
  /\ previous_state w = simulated_state w.

(** * Properties *)

(** ** The test suite's scenarios *)

Example scenario_1 :
  total_events_counted
    (exec (scenario 0x0F [0x00; 0x03; 0x07; 0x07; 0x05; 0x0F]) boot_world) = 5.
Proof. vm_compute. reflexivity. Qed.

Example scenario_2 :
  total_events_counted (exec (scenario 0x05 [0x00; 0x0F]) boot_world) = 2.
Proof. vm_compute. reflexivity. Qed.

Example scenario_3 :
  total_events_counted (exec (scenario 0x00 [0x00; 0xFF]) boot_world) = 0.
Proof. vm_compute. reflexivity. Qed.

Example scenario_4 :
  total_events_counted
    (exec (scenario 0xFF [0x00; 0x01; 0x03; 0x01; 0x03]) boot_world) = 3.
Proof. vm_compute. reflexivity. Qed.

Example scenario_5 :
  total_events_counted (exec (scenario 0xFF [0x00; 0xFF]) boot_world) = 8.
Proof. vm_compute. reflexivity. Qed.

Example scenario_6 :
  total_events_counted
    (exec (scenario 0xF0 [0x00; 0x0F; 0xFF; 0x0F; 0xFF]) boot_world) = 8.
Proof. vm_compute. reflexivity. Qed.

(** ** The width of a sample *)

Example gpio_mask_t_is_uint32 : 2 ^ gpio_mask_t_bits = modulus.
Proof. reflexivity. Qed.

(** ** 32-bit arithmetic *)

Section Word32Facts.

Lemma modulus_eq : modulus = 4294967296.
Proof. reflexivity. Qed.

Lemma uint32_range (x : Z) : is_uint32 (uint32 x).
Proof. unfold is_uint32, uint32. apply Z.mod_pos_bound. reflexivity. Qed.

Lemma uint32_small (x : Z) : is_uint32 x -> uint32 x = x.
Proof. unfold is_uint32, uint32. intros H. apply Z.mod_small. exact H. Qed.

Lemma uint32_testbit (x i : Z) :
  Z.testbit (uint32 x) i = (i <? 32) && Z.testbit x i.
Proof. unfold uint32, modulus. apply Z.testbit_mod_pow2. lia. Qed.

(** A non-negative integer with no bit at or above position 32 is a
    [uint32_t]. *)
Lemma is_uint32_of_bits (x : Z) :
  (forall i, 32 <= i -> Z.testbit x i = false) -> is_uint32 x.
Proof.
  intros H.
  assert (E : uint32 x = x).
  { apply Z.bits_inj'. intros i Hi. rewrite uint32_testbit.
    destruct (Z.ltb_spec i 32) as [Hlt | Hge]; [reflexivity |].
    simpl. symmetry. apply H. exact Hge. }
  rewrite <- E. apply uint32_range.
Qed.

Lemma not32_testbit (x i : Z) :
  0 <= i -> Z.testbit (not32 x) i = (i <? 32) && negb (Z.testbit x i).
Proof.
  intros Hi. unfold not32. rewrite uint32_testbit, Z.lnot_spec by exact Hi.
  reflexivity.
Qed.

Lemma shl32_one (i : Z) : 0 <= i < 32 -> shl32 1 i = 2 ^ i.
Proof.
  intros Hi. unfold shl32. rewrite Z.shiftl_1_l. apply uint32_small.
  unfold is_uint32, modulus. split.
  - apply Z.pow_nonneg. lia.
  - apply Z.pow_lt_mono_r; lia.
Qed.

(** The test [rising_edges & (1u << i)] of the scan reads bit [i]. *)
Lemma bit_test (r i : Z) :
  0 <= i < 32 -> negb (Z.land r (shl32 1 i) =? 0) = Z.testbit r i.
Proof.
  intros Hi. rewrite shl32_one by exact Hi.
  destruct (Z.testbit r i) eqn:Hb.
  - destruct (Z.eqb_spec (Z.land r (2 ^ i)) 0) as [E | _]; [| reflexivity].
    exfalso.
    assert (Hc : Z.testbit (Z.land r (2 ^ i)) i = true).
    { rewrite Z.land_spec, Hb, Z.pow2_bits_true by lia. reflexivity. }
    rewrite E, Z.bits_0 in Hc. discriminate.
  - assert (E : Z.land r (2 ^ i) = 0).
    { apply Z.bits_inj'. intros j Hj.
      rewrite Z.land_spec, Z.bits_0, Z.pow2_bits_eqb by lia.
      destruct (Z.eqb_spec i j) as [-> | _].
      - rewrite Hb. reflexivity.
      - apply andb_false_r. }
    rewrite E. reflexivity.
Qed.

Lemma popcount_nonneg (x : Z) : 0 <= popcount x.
Proof. destruct x; simpl; lia. Qed.

Lemma popcount_div2 (x : Z) :
  0 <= x -> popcount x = Z.b2z (Z.odd x) + popcount (Z.div2 x).
Proof.
  intros Hx. destruct x as [| p | p]; [reflexivity | | lia].
  destruct p as [q | q |]; simpl popcount; simpl Z.b2z; lia.
Qed.

Lemma count_bits_div2 (n : nat) (i x : Z) :
  0 <= i -> count_bits n (i + 1) x = count_bits n i (Z.div2 x).
Proof.
  revert i. induction n as [| n IH]; intros i Hi; [reflexivity |].
  cbn [count_bits]. rewrite <- (IH (i + 1)) by lia.
  rewrite Z.div2_spec, Z.shiftr_spec by exact Hi. reflexivity.
Qed.

(** Counting the ones among the low [n] positions of an [n]-bit value
    is its population count. *)
Lemma count_bits_popcount (n : nat) (x : Z) :
  0 <= x < 2 ^ Z.of_nat n -> Z.of_nat (count_bits n 0 x) = popcount x.
Proof.
  revert x. induction n as [| n IH]; intros x Hx.
  - simpl in Hx. assert (x = 0) by lia. subst x. reflexivity.
  - rewrite Nat2Z.inj_succ, Z.pow_succ_r in Hx by lia.
    cbn [count_bits]. rewrite count_bits_div2 by lia.
    rewrite Nat2Z.inj_add, IH.
    + rewrite (popcount_div2 x) by lia. rewrite Z.bit0_odd.
      destruct (Z.odd x); reflexivity.
    + rewrite Z.div2_div. split.
      * apply Z.div_pos; lia.
      * apply Z.div_lt_upper_bound; lia.
Qed.

Lemma popcount_le_32 (x : Z) : is_uint32 x -> 0 <= popcount x <= 32.
Proof.
  intros Hx. split; [apply popcount_nonneg |].
  rewrite <- (count_bits_popcount 32 x) by exact Hx.
  assert (B : forall n i, (count_bits n i x <= n)%nat).
  { induction n as [| n IH]; intros i; simpl; [lia |].
    specialize (IH (i + 1)). destruct (Z.testbit x i); lia. }
  specialize (B 32%nat 0). lia.
Qed.

Lemma incr_times_uint32 (k : nat) (c : Z) :
  uint32 (incr_times k c) = uint32 (c + Z.of_nat k).
Proof.
  induction k as [| k IH].
  - simpl. rewrite Z.add_0_r. reflexivity.
  - change (incr_times (S k) c) with (add32 (incr_times k c) 1).
    unfold add32, uint32 in *. rewrite Zmod_mod.
    rewrite Zplus_mod, IH, <- Zplus_mod.
    f_equal. lia.
Qed.

(** Repeated increments add modulo [2^32]. *)
Lemma incr_times_add (k : nat) (c : Z) :
  is_uint32 c -> incr_times k c = add32 c (Z.of_nat k).
Proof.
  intros Hc. unfold add32. rewrite <- incr_times_uint32.
  symmetry. apply uint32_small.
  destruct k as [| k]; [exact Hc |].
  unfold incr_times. cbn [Nat.iter]. apply uint32_range.
Qed.

Lemma incr_times_range (k : nat) (c : Z) :
  is_uint32 c -> is_uint32 (incr_times k c).
Proof.
  intros Hc. rewrite incr_times_add by exact Hc. apply uint32_range.
Qed.

End Word32Facts.

(** ** The edge detector *)

Section EdgeDetector.

Lemma rising_edges_testbit (prev new_state mask i : Z) :
  0 <= i ->
  Z.testbit (rising_edges_of prev new_state mask) i =
  (i <? 32) && negb (Z.testbit prev i) && Z.testbit new_state i
  && Z.testbit mask i.
Proof.
  intros Hi. unfold rising_edges_of.
  rewrite !Z.land_spec, not32_testbit by exact Hi. reflexivity.
Qed.

Lemma rising_edges_range (prev new_state mask : Z) :
  is_uint32 (rising_edges_of prev new_state mask).
Proof.
  apply is_uint32_of_bits. intros i Hi.
  rewrite rising_edges_testbit by lia.
  destruct (Z.ltb_spec i 32); [lia | reflexivity].
Qed.

Lemma with_event_count_same (w : world) :
  with_event_count (event_count w) w = w.
Proof. destruct w. reflexivity. Qed.

Lemma with_event_count_twice (u v : Z) (w : world) :
  with_event_count v (with_event_count u w) = with_event_count v w.
Proof. reflexivity. Qed.

Lemma incr_times_succ_r (k : nat) (c : Z) :
  incr_times k (add32 c 1) = incr_times (S k) c.
Proof.
  unfold incr_times. rewrite Nat.iter_succ_r. reflexivity.
Qed.

(** What the scan does from position [i] on, [n] positions long. *)
Lemma scan_from (r : Z) (n : nat) :
  forall (i : Z) (w : world),
    0 <= i -> i + Z.of_nat n <= 32 ->
    for_upto n i (fun j =>
      if negb (Z.land r (shl32 1 j) =? 0)
      then incr_event_count else ret tt) w =
    (tt, with_event_count
           (incr_times (count_bits n i r) (event_count w)) w).
Proof.
  induction n as [| n IH]; intros i w Hi Hn.
  - simpl. rewrite with_event_count_same. reflexivity.
  - cbn [for_upto count_bits]. unfold bind at 1.
    rewrite bit_test by lia.
    destruct (Z.testbit r i).
    + change (snd (incr_event_count w))
        with (with_event_count (add32 (event_count w) 1) w).
      rewrite IH by lia.
      rewrite with_event_count_twice.
      change (event_count (with_event_count (add32 (event_count w) 1) w))
        with (add32 (event_count w) 1).
      rewrite incr_times_succ_r. reflexivity.
    + change (snd (ret tt w)) with w.
      rewrite IH by lia. reflexivity.
Qed.

(** The scan performs one increment per set bit of a 32-bit word. *)
Lemma count_rising_edges_spec (r : Z) (w : world) :
  is_uint32 r ->
  count_rising_edges r w =
  (tt, with_event_count
         (incr_times (Z.to_nat (popcount r)) (event_count w)) w).
Proof.
  intros Hr. unfold count_rising_edges, for_range.
  change (Z.to_nat (32 - 0)) with 32%nat.
  rewrite scan_from by (simpl; lia).
  rewrite <- (count_bits_popcount 32 r) by exact Hr.
  rewrite Nat2Z.id. reflexivity.
Qed.

(** The whole effect of one notification. *)
Lemma gpio_change_callback_spec (new_state : Z) (w : world) :
  let r := rising_edges_of (previous_state w) new_state (monitored_mask w) in
  gpio_change_callback new_state w =
  (tt, mkWorld (incr_times (Z.to_nat (popcount r)) (event_count w))
               (monitored_mask w) new_state
               (simulated_state w) (static_callback w)
               (calls w ++ callback_calls r)).
Proof.
  intros r. unfold gpio_change_callback, callback_calls.
  unfold bind at 1 2 3. cbn [fst snd load_previous_state load_monitored_mask].
  fold r.
  destruct (Z.eqb_spec r 0) as [E | NE]; cbn [negb].
  - rewrite E. cbn. rewrite app_nil_r. reflexivity.
  - unfold bind. rewrite count_rising_edges_spec by apply rising_edges_range.
    cbn. unfold rtos_mutex_unlock, emit. cbn.
    rewrite <- app_assoc. reflexivity.
Qed.

End EdgeDetector.

(** C1.  One invocation of the edge-detection callback performs exactly
    [popcount ((~prev & new) & m)] increments of the Event Counter, [prev]
    being the stored previous sample and [m] the monitor mask: the counter
    ends at its old value plus that population count, in [uint32_t]
    arithmetic.  A position whose bit stays 1 or falls (it was 1 in [prev]),
    is 0 in the new sample, or lies outside the mask is not among the bits
    counted, and at most 32 events come from one notification. *)
Theorem callback_counts_rising_edges (new_state : Z) (w : world) :
  is_uint32 (event_count w) ->
  let prev := previous_state w in
  let m := monitored_mask w in
  let rising := Z.land (Z.land (not32 prev) new_state) m in
  let w' := exec (gpio_change_callback new_state) w in
  event_count w' = incr_times (Z.to_nat (popcount rising)) (event_count w)
  /\ event_count w' = uint32 (event_count w + popcount rising)
  /\ 0 <= popcount rising <= 32
  /\ (forall i : Z,
        Z.testbit prev i = true \/ Z.testbit new_state i = false
        \/ Z.testbit m i = false ->
        Z.testbit rising i = false).
Proof.
  intros Hc prev m rising w'.
  assert (E : event_count w' =
              incr_times (Z.to_nat (popcount rising)) (event_count w)).
  { unfold w', exec. rewrite gpio_change_callback_spec. reflexivity. }
  split; [exact E | split; [| split]].
  - rewrite E, incr_times_add by exact Hc.
    rewrite Z2Nat.id by apply popcount_nonneg. reflexivity.
  - apply popcount_le_32. apply (rising_edges_range prev new_state m).
  - intros i Hbits.
    destruct (Z.ltb_spec i 0) as [Hneg | Hpos].
    + apply Z.testbit_neg_r. exact Hneg.
    + change rising with (rising_edges_of prev new_state m).
      rewrite rising_edges_testbit by exact Hpos.
      destruct Hbits as [H | [H | H]]; rewrite H;
        repeat rewrite ?andb_false_r, ?andb_false_l; reflexivity.
Qed.

Lemma callback_counts_rising_edges_witness :
  let w := mkWorld 4294967295 0x0F 0x05 0x05 (Some Gpio_change_callback) [] in
  event_count (exec (gpio_change_callback 0x0F) w) = 1.
Proof.
  intros w.
  destruct (callback_counts_rising_edges 0x0F w) as [_ [E _]].
  - unfold is_uint32, modulus. simpl. lia.
  - rewrite E. reflexivity.
Defined.

(** C3.  After the callback has run on a new sample, the stored previous
    sample is that sample, whatever the previous sample and the mask were
    and whether or not any monitored bit rose; in particular after a
    notification that repeats the previous sample, and after one whose
    rising-edge set is zero, in which case nothing else changed. *)
Theorem callback_stores_new_sample (new_state : Z) (w : world) :
  let w' := exec (gpio_change_callback new_state) w in
  previous_state w' = new_state
  /\ (rising_edges_of (previous_state w) new_state (monitored_mask w) = 0 ->
      w' = exec (store_previous_state new_state) w).
Proof.
  intros w'. unfold w', exec. rewrite gpio_change_callback_spec.
  split; [reflexivity |].
  intros E. rewrite E. cbn. rewrite app_nil_r. reflexivity.
Qed.

(** C8.  On every 32-bit word of rising edges the scan of the 32 bit
    positions and the single addition of the population count are the same
    state transformer, and both leave the counter at its old value plus
    the population count, in [uint32_t] arithmetic. *)
Theorem scan_refines_popcount (rising_edges : Z) (w : world) :
  is_uint32 rising_edges ->
  is_uint32 (event_count w) ->
  count_rising_edges rising_edges w = count_rising_edges_popcount rising_edges w
  /\ event_count (exec (count_rising_edges rising_edges) w) =
     uint32 (event_count w + popcount rising_edges)
  /\ event_count (exec (count_rising_edges_popcount rising_edges) w) =
     uint32 (event_count w + popcount rising_edges).
Proof.
  intros Hr Hc.
  assert (E : count_rising_edges rising_edges w =
              count_rising_edges_popcount rising_edges w).
  { rewrite count_rising_edges_spec by exact Hr.
    rewrite incr_times_add by exact Hc.
    rewrite Z2Nat.id by apply popcount_nonneg. reflexivity. }
  split; [exact E | split].
  - unfold exec. rewrite E. reflexivity.
  - reflexivity.
Qed.

Lemma scan_refines_popcount_witness :
  let w := mkWorld 4294967290 0xFF 0 0 None [] in
  event_count (exec (count_rising_edges 0xFF) w) = 2
  /\ event_count (exec (count_rising_edges_popcount 0xFF) w) = 2.
Proof.
  intros w.
  destruct (scan_refines_popcount 0xFF w) as [_ [E1 E2]].
  - unfold is_uint32, modulus. simpl. lia.
  - unfold is_uint32, modulus. simpl. lia.
  - rewrite E1, E2. split; reflexivity.
Defined.

(** C9.  The Event Counter is a [uint32_t] and wraps: when it holds
    [2^32 - 1], one [++event_count] leaves it at 0, and so does a
    notification in which exactly one monitored bit rose; the notification
    is otherwise carried out as usual (the previous sample is updated).
    In general [++event_count] adds one modulo [2^32], and a notification
    that finds the counter in the range of a [uint32_t] leaves it there. *)
Theorem event_count_wraps (new_state : Z) (w : world) :
  event_count w = modulus - 1 ->
  popcount (rising_edges_of (previous_state w) new_state (monitored_mask w))
  = 1 ->
  event_count (exec incr_event_count w) = 0
  /\ event_count (exec (gpio_change_callback new_state) w) = 0
  /\ previous_state (exec (gpio_change_callback new_state) w) = new_state
  /\ (forall v : world,
        event_count (exec incr_event_count v) = (event_count v + 1) mod 2 ^ 32)
  /\ (forall (x : Z) (v : world),
        is_uint32 (event_count v) ->
        is_uint32 (event_count (exec (gpio_change_callback x) v))).
Proof.
  intros Hc Hp. split; [| split; [| split; [| split]]].
  - cbn. rewrite Hc. reflexivity.
  - unfold exec. rewrite gpio_change_callback_spec. cbn [snd event_count].
    rewrite Hp, Hc. reflexivity.
  - unfold exec. rewrite gpio_change_callback_spec. reflexivity.
  - intros v. reflexivity.
  - intros x v Hv. unfold exec. rewrite gpio_change_callback_spec.
    cbn [snd event_count]. apply incr_times_range. exact Hv.
Qed.

Lemma event_count_wraps_witness :
  let w := mkWorld 4294967295 0x01 0 0 None [] in
  event_count (exec (gpio_change_callback 0x01) w) = 0.
Proof.
  intros w.
  destruct (event_count_wraps 0x01 w) as [_ [E _]].
  - reflexivity.
  - reflexivity.
  - exact E.
Defined.

(** ** Interleavings of notifications and drains *)

Section Interleavings.

Lemma reported_values_app (cs1 cs2 : list call) :
  reported_values (cs1 ++ cs2) = reported_values cs1 ++ reported_values cs2.
Proof.
  induction cs1 as [| c cs1 IH]; [reflexivity |].
  destruct c; simpl; rewrite IH; reflexivity.
Qed.

Lemma sum_list_app (l1 l2 : list Z) :
  sum_list (l1 ++ l2) = sum_list l1 + sum_list l2.
Proof.
  unfold sum_list. induction l1 as [| x l1 IH]; simpl; lia.
Qed.

Lemma callback_calls_no_report (r : Z) :
  reported_values (callback_calls r) = [].
Proof. unfold callback_calls. destruct (r =? 0); reflexivity. Qed.

Lemma uint32_add_inner (a b c : Z) :
  uint32 (a + uint32 b + c) = uint32 (a + b + c).
Proof.
  unfold uint32.
  replace (a + b mod modulus + c) with (b mod modulus + (a + c)) by lia.
  rewrite Zplus_mod_idemp_l. f_equal. lia.
Qed.

Lemma last_cons (xs : list Z) :
  forall x d : Z, last (x :: xs) d = last xs x.
Proof.
  induction xs as [| z xs IH]; intros x d; [reflexivity |].
  change (last (x :: z :: xs) d) with (last (z :: xs) d).
  rewrite (IH z d), (IH z x). reflexivity.
Qed.

Lemma run_cons (a : action) (acts : list action) (w : world) :
  exec (run (a :: acts)) w = exec (run acts) (exec (step a) w).
Proof. reflexivity. Qed.

(** The fields after one notification. *)
Lemma notify_fields (x : Z) (w : world) :
  is_uint32 (event_count w) ->
  let r := rising_edges_of (previous_state w) x (monitored_mask w) in
  let w' := exec (gpio_change_callback x) w in
  event_count w' = add32 (event_count w) (popcount r)
  /\ monitored_mask w' = monitored_mask w
  /\ previous_state w' = x
  /\ reported_values (calls w') = reported_values (calls w).
Proof.
  intros Hc r w'. unfold w', exec. rewrite gpio_change_callback_spec.
  cbn [snd event_count monitored_mask previous_state calls]. fold r.
  repeat split.
  - rewrite incr_times_add by exact Hc.
    rewrite Z2Nat.id by apply popcount_nonneg. reflexivity.
  - rewrite reported_values_app, callback_calls_no_report.
    apply app_nil_r.
Qed.

(** The fields after one drain. *)
Lemma drain_fields (w : world) :
  let w' := exec trigger_event_report_for_test w in
  event_count w' = 0
  /\ monitored_mask w' = monitored_mask w
  /\ previous_state w' = previous_state w
  /\ calls w' = calls w ++ [Call_rtos_mutex_lock; Call_rtos_mutex_unlock;
                            Call_report_event_count (event_count w)].
Proof.
  cbn. repeat split. rewrite <- !app_assoc. reflexivity.
Qed.

(** A run of notifications alone: the counter holds the contributions,
    nothing is reported, the last sample is remembered. *)
Lemma notify_all_fields (xs : list Z) :
  forall w : world,
    is_uint32 (event_count w) ->
    let w' := exec (notify_all xs) w in
    event_count w' =
      uint32 (event_count w
              + sum_list (contributions (map Notify xs)
                            (previous_state w) (monitored_mask w)))
    /\ monitored_mask w' = monitored_mask w
    /\ previous_state w' = last xs (previous_state w)
    /\ reported_values (calls w') = reported_values (calls w).
Proof.
  induction xs as [| x xs IH]; intros w Hc.
  - cbn. rewrite Z.add_0_r, uint32_small by exact Hc. repeat split.
  - destruct (notify_fields x w Hc) as (Ec & Em & Ep & Er).
    set (w1 := exec (gpio_change_callback x) w) in *.
    assert (Hc1 : is_uint32 (event_count w1)).
    { rewrite Ec. apply uint32_range. }
    destruct (IH w1 Hc1) as (Ec' & Em' & Ep' & Er').
    change (exec (notify_all (x :: xs)) w) with (exec (notify_all xs) w1).
    cbv zeta in *. rewrite Ec', Em', Ep', Er', Ec, Em, Ep, Er.
    cbn [contributions sum_list fold_right].
    repeat split.
    + unfold add32.
      rewrite <- (Z.add_0_l (uint32 _ + _)), Z.add_assoc, uint32_add_inner.
      f_equal. cbn [map contributions sum_list fold_right].
      unfold sum_list. lia.
    + symmetry. apply last_cons.
Qed.

(** The accounting of a run: what was reported plus what is still in the
    counter against what the notifications contributed. *)
Lemma run_accounting (acts : list action) :
  forall w : world,
    is_uint32 (event_count w) ->
    let w' := exec (run acts) w in
    let cs := contributions acts (previous_state w) (monitored_mask w) in
    is_uint32 (event_count w')
    /\ uint32 (total_reported w' + event_count w') =
       uint32 (total_reported w + event_count w + sum_list cs)
    /\ (no_overflow acts (event_count w) (previous_state w)
          (monitored_mask w) = true ->
        total_reported w' + event_count w' =
        total_reported w + event_count w + sum_list cs).
Proof.
  induction acts as [| a acts IH]; intros w Hc.
  - cbn. rewrite Z.add_0_r. repeat split; try exact Hc; apply Hc.
  - rewrite run_cons. destruct a as [x |]; cbn [step contributions no_overflow].
    + destruct (notify_fields x w Hc) as (Ec & Em & Ep & Er).
      set (w1 := exec (gpio_change_callback x) w) in *.
      set (p := popcount (rising_edges_of (previous_state w) x
                            (monitored_mask w))) in *.
      assert (Hc1 : is_uint32 (event_count w1)).
      { rewrite Ec. apply uint32_range. }
      assert (Et : total_reported w1 = total_reported w).
      { unfold total_reported. rewrite Er. reflexivity. }
      destruct (IH w1 Hc1) as (R & Hm & Hx).
      cbv zeta in *. rewrite Em, Ep, Et in *.
      split; [exact R | split].
      * rewrite Hm, Ec. unfold add32. rewrite uint32_add_inner.
        f_equal. cbn [sum_list fold_right]. unfold sum_list. lia.
      * intros Hno. apply andb_prop in Hno. destruct Hno as [Hlt Hno].
        apply Z.ltb_lt in Hlt.
        assert (Ec1 : event_count w1 = event_count w + p).
        { rewrite Ec. unfold add32. apply uint32_small.
          pose proof (popcount_nonneg
                        (rising_edges_of (previous_state w) x
                           (monitored_mask w))).
          unfold is_uint32 in *. fold p in H. lia. }
        rewrite Ec1 in Hx. rewrite (Hx Hno).
        cbn [sum_list fold_right]. unfold sum_list. lia.
    + destruct (drain_fields w) as (Ec & Em & Ep & El).
      set (w1 := exec trigger_event_report_for_test w) in *.
      assert (Hc1 : is_uint32 (event_count w1)).
      { rewrite Ec. unfold is_uint32, modulus. simpl. lia. }
      assert (Et : total_reported w1 = total_reported w + event_count w).
      { unfold total_reported. rewrite El, reported_values_app, sum_list_app.
        cbn. lia. }
      destruct (IH w1 Hc1) as (R & Hm & Hx).
      cbv zeta in *. rewrite Em, Ep, Et, Ec in *.
      split; [exact R | split].
      * rewrite Hm. f_equal. lia.
      * intros Hno. rewrite (Hx Hno). lia.
Qed.

End Interleavings.

(** C2, as amended.  Along any interleaving of notifications and drains,
    started from any state whose counter is a [uint32_t], the sum of the
    reported values plus the residual counter agrees with what had been
    reported and counted before plus the sum of the contributions [c_i]
    modulo [2^32]; the two are equal outright when no notification carries
    the counter past [2^32 - 1] before the next drain. *)
Theorem no_loss_up_to_overflow (acts : list action) (w : world) :
  is_uint32 (event_count w) ->
  let w' := exec (run acts) w in
  let cs := contributions acts (previous_state w) (monitored_mask w) in
  uint32 (total_reported w' + event_count w') =
  uint32 (total_reported w + event_count w + sum_list cs)
  /\ (no_overflow acts (event_count w) (previous_state w) (monitored_mask w)
      = true ->
      total_reported w' + event_count w' =
      total_reported w + event_count w + sum_list cs).
Proof.
  intros Hc. destruct (run_accounting acts w Hc) as (_ & Hm & Hx).
  split; assumption.
Qed.

Lemma no_loss_up_to_overflow_witness :
  let w0 := exec (event_monitor_init 0x0F) boot_world in
  let acts := [Notify 0x03; Drain; Notify 0x07; Notify 0x05; Notify 0x0F;
               Drain; Notify 0x00; Notify 0x0F] in
  let w := exec (run acts) w0 in
  total_reported w + event_count w = 9.
Proof.
  intros w0 acts w.
  destruct (no_loss_up_to_overflow acts w0) as [_ E].
  - unfold is_uint32, modulus. simpl. lia.
  - unfold w. rewrite (E eq_refl). reflexivity.
Defined.

Lemma toggle_contributions (k : nat) :
  sum_list (contributions (map Notify (all_lines_toggle k)) 0 0xFFFFFFFF)
  = 32 * Z.of_nat k.
Proof.
  induction k as [| k IH]; [reflexivity |].
  cbn [all_lines_toggle map contributions].
  replace (popcount (rising_edges_of 0 0xFFFFFFFF 0xFFFFFFFF)) with 32
    by reflexivity.
  replace (popcount (rising_edges_of 0xFFFFFFFF 0 0xFFFFFFFF)) with 0
    by reflexivity.
  unfold sum_list in *. cbn [fold_right]. rewrite IH. lia.
Qed.

(** The state after [k] rounds of all lines rising and falling, started
    right after initialisation with every line monitored and low. *)
Lemma toggle_run (k : nat) :
  let w0 := exec (event_monitor_init 0xFFFFFFFF) boot_world in
  let acts := map Notify (all_lines_toggle k) in
  let w := exec (run acts) w0 in
  total_reported w + event_count w = uint32 (32 * Z.of_nat k)
  /\ sum_list (contributions acts (previous_state w0) (monitored_mask w0))
     = 32 * Z.of_nat k.
Proof.
  intros w0 acts w.
  assert (Hc0 : is_uint32 (event_count w0)).
  { unfold is_uint32, modulus. simpl. lia. }
  destruct (notify_all_fields (all_lines_toggle k) w0 Hc0)
    as (Ec & _ & _ & Er).
  change (exec (notify_all (all_lines_toggle k)) w0) with w in Ec, Er.
  fold acts in Ec.
  change (previous_state w0) with 0 in *.
  change (monitored_mask w0) with 0xFFFFFFFF in *.
  change (event_count w0) with 0 in Ec.
  unfold acts in *. rewrite toggle_contributions in *.
  split; [| reflexivity].
  unfold total_reported. rewrite Er, Ec. reflexivity.
Qed.

(** C2, as stated, fails once the counter overflows.  With every line
    monitored and every line low at initialisation, [2^27] notifications of
    all 32 lines rising, each followed by all of them falling, contribute
    [2^32] events with no drain in between; nothing has been reported and
    the counter is back at zero. *)
Lemma no_loss_fails_after_overflow :
  let w0 := exec (event_monitor_init 0xFFFFFFFF) boot_world in
  let acts := map Notify (all_lines_toggle (2 ^ 27)) in
  let w := exec (run acts) w0 in
  total_reported w + event_count w
  <> sum_list (contributions acts (previous_state w0) (monitored_mask w0)).
Proof.
  intros w0 acts w.
  destruct (toggle_run (2 ^ 27)) as [E1 E2].
  fold w0 in E1, E2. fold acts in E1, E2. fold w in E1.
  rewrite E1, E2, Nat2Z.inj_pow.
  intros H. vm_compute in H. discriminate H.
Qed.

(** ** A mask of zero *)

Lemma rising_edges_zero_mask (prev new_state : Z) :
  rising_edges_of prev new_state 0 = 0.
Proof. unfold rising_edges_of. apply Z.land_0_r. Qed.

Lemma zero_mask_run (xs : list Z) :
  forall w : world,
    monitored_mask w = 0 ->
    event_count (exec (notify_all xs) w) = event_count w
    /\ calls (exec (notify_all xs) w) = calls w.
Proof.
  induction xs as [| x xs IH]; intros w Hm; [split; reflexivity |].
  change (exec (notify_all (x :: xs)) w)
    with (exec (notify_all xs) (exec (gpio_change_callback x) w)).
  unfold exec at 2 4. rewrite gpio_change_callback_spec, Hm.
  rewrite rising_edges_zero_mask. cbn [snd].
  match goal with
  | |- event_count (exec _ ?w1) = _ /\ _ =>
      destruct (IH w1 eq_refl) as [Ec El]; rewrite Ec, El
  end.
  cbn. rewrite app_nil_r. split; reflexivity.
Qed.

Lemma zero_mask_contributions (acts : list action) :
  forall prev : Z, sum_list (contributions acts prev 0) = 0.
Proof.
  induction acts as [| a acts IH]; intros prev; [reflexivity |].
  destruct a as [x |]; cbn [contributions].
  - rewrite rising_edges_zero_mask. unfold sum_list in *. cbn [fold_right].
    rewrite IH. reflexivity.
  - apply IH.
Qed.

(** C7.  With a monitor mask of zero, a sequence of notifications of any
    length, from any previous sample, produces no event: the counter holds
    its initial value after every prefix of the sequence, every
    contribution is zero, and the mutex is never even taken. *)
Theorem zero_mask_no_events (samples : list Z) (w : world) :
  monitored_mask w = 0 ->
  (forall n : nat,
      event_count (exec (notify_all (firstn n samples)) w) = event_count w)
  /\ sum_list (contributions (map Notify samples) (previous_state w)
                 (monitored_mask w)) = 0
  /\ calls (exec (notify_all samples) w) = calls w.
Proof.
  intros Hm. split; [| split].
  - intros n. apply zero_mask_run. exact Hm.
  - rewrite Hm. apply zero_mask_contributions.
  - apply zero_mask_run. exact Hm.
Qed.

Lemma zero_mask_no_events_witness :
  let w := exec (event_monitor_init 0x00) boot_world in
  event_count (exec (notify_all [0x00; 0xFF; 0x0F; 0xFFFFFFFF]) w) = 0.
Proof.
  intros w.
  destruct (zero_mask_no_events [0x00; 0xFF; 0x0F; 0xFFFFFFFF] w) as [E _].
  - reflexivity.
  - exact (E 4%nat).
Defined.

(** ** The reporter *)

(** The drain the test helper performs is the one of the task. *)
Lemma trigger_is_drain_then_report :
  trigger_event_report_for_test =
  (count <- monitor_task_drain ;; monitor_task_report count).
Proof. reflexivity. Qed.

(** C6.  A drain leaves the counter at zero, so that a second drain right
    after it, with no notification in between, reports zero: the two drains
    report the counter's value and then 0.  This holds for the drain of the
    task as for the test helper. *)
Theorem drain_twice_reports_zero (w : world) :
  let w1 := exec trigger_event_report_for_test w in
  let w2 := exec trigger_event_report_for_test w1 in
  event_count w1 = 0
  /\ event_count w2 = 0
  /\ reported_values (calls w2) =
     reported_values (calls w) ++ [event_count w; 0]
  /\ eval monitor_task_drain w = event_count w
  /\ eval monitor_task_drain (exec monitor_task_drain w) = 0.
Proof.
  cbn. repeat split.
  rewrite !reported_values_app. cbn. rewrite <- !app_assoc. reflexivity.
Qed.

Lemma monitor_task_iteration_spec (w : world) :
  exec monitor_task_iteration w =
  mkWorld 0 (monitored_mask w) (previous_state w)
          (simulated_state w) (static_callback w)
          (calls w ++ period_calls (event_count w) 1).
Proof.
  cbn. rewrite <- !app_assoc. reflexivity.
Qed.

Lemma monitor_task_calls (n : nat) :
  forall w : world,
    calls (exec (monitor_task n) w) = calls w ++ period_calls (event_count w) n.
Proof.
  induction n as [| n IH]; intros w.
  - cbn. rewrite app_nil_r. reflexivity.
  - change (exec (monitor_task (S n)) w)
      with (exec (monitor_task n) (exec monitor_task_iteration w)).
    rewrite IH, monitor_task_iteration_spec.
    cbn [calls event_count period_calls].
    rewrite <- app_assoc. reflexivity.
Qed.

(** C5.  One period of the reporter task, with the notifications [xs] that
    arrive while it sleeps and the notifications [ys] that arrive between
    its critical section and its report: the task asks for a delay of 1000,
    then, inside one lock/unlock pair, reads the counter and stores zero,
    then calls [report_event_count] once, with exactly the value read.
    That value is the counter the period started with plus the
    contributions of [xs], in [uint32_t] arithmetic; the contributions of
    [ys] are in the counter for the next period.  Left alone for [n]
    periods, the task makes exactly these four calls per period. *)
Theorem reporter_period (xs ys : list Z) (n : nat) (w : world) :
  is_uint32 (event_count w) ->
  let w1 := exec monitor_task_sleep w in
  let w2 := exec (notify_all xs) w1 in
  let count := eval monitor_task_drain w2 in
  let w3 := exec monitor_task_drain w2 in
  let w4 := exec (notify_all ys) w3 in
  let w5 := exec (monitor_task_report count) w4 in
  calls w1 = calls w ++ [Call_rtos_task_delay_ms 1000]
  /\ count = event_count w2
  /\ count = uint32 (event_count w
                     + sum_list (contributions (map Notify xs)
                                   (previous_state w) (monitored_mask w)))
  /\ event_count w3 = 0
  /\ calls w3 = calls w2 ++ [Call_rtos_mutex_lock; Call_rtos_mutex_unlock]
  /\ calls w5 = calls w4 ++ [Call_report_event_count count]
  /\ reported_values (calls w5) = reported_values (calls w) ++ [count]
  /\ event_count w5 =
     uint32 (sum_list (contributions (map Notify ys)
                         (previous_state w2) (monitored_mask w)))
  /\ calls (exec (monitor_task n) w) =
     calls w ++ period_calls (event_count w) n.
Proof.
  intros Hc w1 w2 count w3 w4 w5.
  destruct (notify_all_fields xs w1 Hc) as (Ec2 & Em2 & _ & Er2).
  fold w2 in Ec2, Em2, Er2.
  assert (Hc3 : is_uint32 (event_count w3)).
  { unfold is_uint32, modulus. simpl. lia. }
  destruct (notify_all_fields ys w3 Hc3) as (Ec4 & _ & _ & Er4).
  fold w4 in Ec4, Er4.
  repeat split.
  - exact Ec2.
  - cbn. rewrite <- app_assoc. reflexivity.
  - change (reported_values (calls w4 ++ [Call_report_event_count count])
            = reported_values (calls w) ++ [count]).
    rewrite reported_values_app, Er4.
    change (calls w3)
      with ((calls w2 ++ [Call_rtos_mutex_lock]) ++ [Call_rtos_mutex_unlock]).
    rewrite !reported_values_app, Er2.
    change (calls w1) with (calls w ++ [Call_rtos_task_delay_ms 1000]).
    rewrite reported_values_app. cbn. rewrite !app_nil_r. reflexivity.
  - change (event_count w5) with (event_count w4). rewrite Ec4.
    change (monitored_mask w3) with (monitored_mask w2). rewrite Em2.
    reflexivity.
  - apply monitor_task_calls.
Qed.

Lemma reporter_period_witness :
  let w := exec (event_monitor_init 0x0F) boot_world in
  let w1 := exec monitor_task_sleep w in
  let w2 := exec (notify_all [0x03; 0x00; 0x0F]) w1 in
  eval monitor_task_drain w2 = 6.
Proof.
  intros w w1 w2.
  destruct (reporter_period [0x03; 0x00; 0x0F] [0x00; 0x01] 2 w)
    as (_ & _ & E & _).
  - unfold is_uint32, modulus. simpl. lia.
  - fold w1 w2 in E. rewrite E. reflexivity.
Defined.

(** ** Initialisation *)

(** C4.  For every mask, [event_monitor_init] stores the mask, stores the
    input source's current state as the previous sample, hands
    [gpio_change_callback] to [gpio_register_callback] (which installs it as
    the handler) and then hands [monitor_task] to [rtos_task_create].  A bit
    that was high at initialisation is not a rising edge of the first
    notification, whatever sample it delivers, and that notification
    reaches the callback. *)
Theorem event_monitor_init_spec (mask new_state : Z) (w : world) :
  let w1 := exec (event_monitor_init mask) w in
  monitored_mask w1 = mask
  /\ previous_state w1 = eval gpio_read_input w
  /\ static_callback w1 = Some Gpio_change_callback
  /\ calls w1 = calls w ++ [Call_gpio_register_callback Gpio_change_callback;
                            Call_rtos_task_create Monitor_task]
  /\ Z.land (eval gpio_read_input w)
            (rising_edges_of (previous_state w1) new_state (monitored_mask w1))
     = 0
  /\ simulate_gpio_change new_state w1
     = gpio_change_callback new_state
         (exec (store_simulated_state new_state) w1).
Proof.
  cbn. repeat split.
  - rewrite <- app_assoc. reflexivity.
  - apply Z.bits_inj'. intros i Hi.
    rewrite Z.land_spec, rising_edges_testbit, Z.bits_0 by exact Hi.
    destruct (Z.testbit (simulated_state w) i); cbn;
      rewrite ?andb_false_r; reflexivity.
Qed.

(** C10.  [event_monitor_init] leaves the Event Counter as it found it, on
    a first call as on a repeated one: it overwrites the mask and the
    previous sample and never zeroes the counter, so the events counted
    before a re-initialisation are what the next drain reports. *)
Theorem event_monitor_init_keeps_count (mask mask' : Z) (xs : list Z)
    (w : world) :
  let w1 := exec (event_monitor_init mask) w in
  let w2 := exec (notify_all xs) w1 in
  let w3 := exec (event_monitor_init mask') w2 in
  event_count w1 = event_count w
  /\ event_count w3 = event_count w2
  /\ monitored_mask w3 = mask'
  /\ previous_state w3 = simulated_state w2
  /\ eval monitor_task_drain w3 = event_count w2
  /\ reported_values (calls (exec trigger_event_report_for_test w3)) =
     reported_values (calls w3) ++ [event_count w2].
Proof.
  intros w1 w2 w3. repeat split.
  change (calls (exec trigger_event_report_for_test w3))
    with (((calls w3 ++ [Call_rtos_mutex_lock]) ++ [Call_rtos_mutex_unlock])
          ++ [Call_report_event_count (event_count w2)]).
  rewrite !reported_values_app. cbn. rewrite !app_nil_r. reflexivity.
Qed.

(** * Further properties of the code *)

(** ** The test program runs green *)

Example main_exit_status :
  fst (Suite.main Suite.boot_suite) = 0
  /\ Suite.tests_passed (snd (Suite.main Suite.boot_suite)) = 6.
Proof. vm_compute. split; reflexivity. Qed.

(** ** More about the rising-edge word *)

Lemma popcount_pow2 (i : Z) : 0 <= i -> popcount (2 ^ i) = 1.
Proof.
  intros Hi. pattern i. apply natlike_ind; [reflexivity | | exact Hi].
  intros n Hn IH. rewrite Z.pow_succ_r by exact Hn.
  assert (Hp : 0 < 2 ^ n) by (apply Z.pow_pos_nonneg; lia).
  destruct (2 ^ n) as [| p | p]; try lia. exact IH.
Qed.

Lemma land_pow2 (r i : Z) :
  0 <= i -> Z.land r (2 ^ i) = if Z.testbit r i then 2 ^ i else 0.
Proof.
  intros Hi. apply Z.bits_inj'. intros j Hj.
  rewrite Z.land_spec, Z.pow2_bits_eqb by exact Hi.
  destruct (Z.eqb_spec i j) as [-> | NE].
  - destruct (Z.testbit r j).
    + rewrite Z.pow2_bits_true by exact Hj. reflexivity.
    + rewrite Z.bits_0. reflexivity.
  - rewrite andb_false_r. destruct (Z.testbit r i).
    + rewrite Z.pow2_bits_false by exact NE. reflexivity.
    + rewrite Z.bits_0. reflexivity.
Qed.

Lemma count_bits_lor (a b : Z) (n : nat) :
  Z.land a b = 0 ->
  forall i : Z,
    0 <= i ->
    count_bits n i (Z.lor a b) = (count_bits n i a + count_bits n i b)%nat.
Proof.
  intros Hd. induction n as [| n IH]; intros i Hi; [reflexivity |].
  cbn [count_bits]. rewrite IH by lia. rewrite Z.lor_spec.
  assert (Hb : Z.testbit a i && Z.testbit b i = false).
  { rewrite <- Z.land_spec, Hd. apply Z.bits_0. }
  destruct (Z.testbit a i), (Z.testbit b i); cbn in *;
    try discriminate; lia.
Qed.

Lemma lor_uint32 (a b : Z) :
  is_uint32 a -> is_uint32 b -> is_uint32 (Z.lor a b).
Proof.
  intros Ha Hb. apply is_uint32_of_bits. intros i Hi. rewrite Z.lor_spec.
  rewrite <- (uint32_small a Ha), <- (uint32_small b Hb), !uint32_testbit.
  destruct (Z.ltb_spec i 32); [lia | reflexivity].
Qed.

(** The population count is additive over words with no common bit. *)
Lemma popcount_lor_disjoint (a b : Z) :
  is_uint32 a -> is_uint32 b -> Z.land a b = 0 ->
  popcount (Z.lor a b) = popcount a + popcount b.
Proof.
  intros Ha Hb Hd.
  rewrite <- (count_bits_popcount 32 (Z.lor a b)) by (apply lor_uint32; assumption).
  rewrite <- (count_bits_popcount 32 a) by exact Ha.
  rewrite <- (count_bits_popcount 32 b) by exact Hb.
  rewrite count_bits_lor by (assumption || lia). apply Nat2Z.inj_add.
Qed.

Lemma rising_edges_same (x mask : Z) : rising_edges_of x x mask = 0.
Proof.
  apply Z.bits_inj'. intros i Hi.
  rewrite rising_edges_testbit, Z.bits_0 by exact Hi.
  destruct (Z.testbit x i); cbn; rewrite ?andb_false_r; reflexivity.
Qed.

Lemma rising_edges_falling (prev x mask : Z) :
  Z.lor prev x = prev -> rising_edges_of prev x mask = 0.
Proof.
  intros Hsub. apply Z.bits_inj'. intros i Hi.
  rewrite rising_edges_testbit, Z.bits_0 by exact Hi.
  assert (Hb : Z.testbit prev i || Z.testbit x i = Z.testbit prev i).
  { rewrite <- Z.lor_spec, Hsub. reflexivity. }
  destruct (Z.testbit prev i), (Z.testbit x i); cbn in *;
    try discriminate; rewrite ?andb_false_r; reflexivity.
Qed.

(** What the callback does when no monitored bit rose. *)
Lemma callback_without_rise (x : Z) (w : world) :
  rising_edges_of (previous_state w) x (monitored_mask w) = 0 ->
  exec (gpio_change_callback x) w = exec (store_previous_state x) w.
Proof.
  intros E. unfold exec. rewrite gpio_change_callback_spec, E.
  cbn. rewrite app_nil_r. reflexivity.
Qed.

(** X1.  Delivering the same sample twice in a row has the effect of
    delivering it once, and a notification that repeats the stored previous
    sample leaves the whole state as it was: no event, no call to the
    mutex. *)
Theorem repeated_sample_is_ignored (x : Z) (w : world) :
  exec (gpio_change_callback x) (exec (gpio_change_callback x) w)
  = exec (gpio_change_callback x) w
  /\ exec (gpio_change_callback (previous_state w)) w = w.
Proof.
  split.
  - rewrite (callback_without_rise x (exec (gpio_change_callback x) w)).
    + unfold exec. rewrite gpio_change_callback_spec. reflexivity.
    + unfold exec. rewrite gpio_change_callback_spec.
      cbn [snd previous_state monitored_mask]. apply rising_edges_same.
  - rewrite callback_without_rise by apply rising_edges_same.
    destruct w. reflexivity.
Qed.

(** X2.  Along a sequence of samples each of which only clears bits of its
    predecessor, whatever the mask, the counter and the record of calls
    stay as they were: falling edges are never counted and never take the
    mutex. *)
Theorem falling_samples_count_nothing (xs : list Z) (w : world) :
  only_falling (previous_state w) xs = true ->
  event_count (exec (notify_all xs) w) = event_count w
  /\ calls (exec (notify_all xs) w) = calls w
  /\ previous_state (exec (notify_all xs) w) = last xs (previous_state w).
Proof.
  revert w. induction xs as [| x xs IH]; intros w H.
  - repeat split.
  - cbn [only_falling] in H. apply andb_prop in H. destruct H as [Hx Hxs].
    apply Z.eqb_eq in Hx.
    change (exec (notify_all (x :: xs)) w)
      with (exec (notify_all xs) (exec (gpio_change_callback x) w)).
    rewrite callback_without_rise by (apply rising_edges_falling; exact Hx).
    destruct (IH (exec (store_previous_state x) w) Hxs) as (Ec & El & Ep).
    rewrite Ec, El, Ep. repeat split. symmetry. apply last_cons.
Qed.

Lemma falling_samples_count_nothing_witness :
  let w := mkWorld 7 0xFF 0xFF 0xFF (Some Gpio_change_callback) [] in
  event_count (exec (notify_all [0x7F; 0x0F; 0x0F; 0x01; 0x00]) w) = 7.
Proof.
  intros w.
  destruct (falling_samples_count_nothing [0x7F; 0x0F; 0x0F; 0x01; 0x00] w)
    as (E & _).
  - reflexivity.
  - exact E.
Defined.

(** X3.  The rising-edge words of two consecutive notifications have no
    bit in common, whatever the masks: a line counted by one notification
    is not counted by the next, it has to fall first. *)
Theorem consecutive_rises_are_disjoint (prev x y mask mask' : Z) :
  Z.land (rising_edges_of prev x mask) (rising_edges_of x y mask') = 0.
Proof.
  apply Z.bits_inj'. intros i Hi.
  rewrite Z.land_spec, !rising_edges_testbit, Z.bits_0 by exact Hi.
  destruct (Z.testbit x i); cbn; rewrite ?andb_false_r; reflexivity.
Qed.

(** X4.  With a single line monitored (mask [1 << i], [i] below 32), a
    notification adds one to the counter exactly when that line went from
    0 to 1 and nothing otherwise. *)
Theorem single_line_counts_its_rises (i x : Z) (w : world) :
  0 <= i < 32 ->
  monitored_mask w = shl32 1 i ->
  is_uint32 (event_count w) ->
  event_count (exec (gpio_change_callback x) w) =
  uint32 (event_count w
          + Z.b2z (negb (Z.testbit (previous_state w) i) && Z.testbit x i)).
Proof.
  intros Hi Hm Hc. unfold exec. rewrite gpio_change_callback_spec.
  cbn [snd event_count]. rewrite incr_times_add by exact Hc.
  rewrite Z2Nat.id by apply popcount_nonneg. unfold add32. f_equal. f_equal.
  rewrite Hm, shl32_one by exact Hi. unfold rising_edges_of.
  rewrite land_pow2 by lia. rewrite Z.land_spec, not32_testbit by lia.
  destruct (Z.ltb_spec i 32) as [_ | Hge]; [| lia]. cbn [andb].
  destruct (negb (Z.testbit (previous_state w) i) && Z.testbit x i).
  - apply popcount_pow2. lia.
  - reflexivity.
Qed.

Lemma single_line_counts_its_rises_witness :
  let w := mkWorld 10 0x04 0x03 0x03 (Some Gpio_change_callback) [] in
  event_count (exec (gpio_change_callback 0xFF) w) = 11.
Proof.
  intros w.
  rewrite (single_line_counts_its_rises 2 0xFF w).
  - reflexivity.
  - lia.
  - reflexivity.
  - unfold is_uint32, modulus. simpl. lia.
Defined.

(** X5.  Monitoring two sets of lines that have no line in common counts,
    for every notification, the sum of what each set alone would count. *)
Theorem disjoint_masks_add_up (prev x mask1 mask2 : Z) :
  Z.land mask1 mask2 = 0 ->
  popcount (rising_edges_of prev x (Z.lor mask1 mask2)) =
  popcount (rising_edges_of prev x mask1)
  + popcount (rising_edges_of prev x mask2).
Proof.
  intros Hd. unfold rising_edges_of. rewrite Z.land_lor_distr_r.
  apply popcount_lor_disjoint.
  - apply (rising_edges_range prev x mask1).
  - apply (rising_edges_range prev x mask2).
  - apply Z.bits_inj'. intros i Hi. rewrite !Z.land_spec, Z.bits_0.
    assert (Hb : Z.testbit mask1 i && Z.testbit mask2 i = false).
    { rewrite <- Z.land_spec, Hd. apply Z.bits_0. }
    destruct (Z.testbit mask1 i), (Z.testbit mask2 i); cbn in *;
      try discriminate; rewrite ?andb_false_r; reflexivity.
Qed.

Lemma disjoint_masks_add_up_witness :
  popcount (rising_edges_of 0x01 0xFF (Z.lor 0x0F 0xF0)) = 3 + 4.
Proof.
  rewrite (disjoint_masks_add_up 0x01 0xFF 0x0F 0xF0).
  - reflexivity.
  - reflexivity.
Defined.

(** ** Arbitrary call sequences *)

Lemma do_ops_cons (o : op) (os : list op) (w : world) :
  exec (do_ops (o :: os)) w = exec (do_ops os) (exec (do_op o) w).
Proof. reflexivity. Qed.

Lemma mutex_after_app (cs1 cs2 : list call) :
  forall held : bool,
    mutex_after held (cs1 ++ cs2) =
    match mutex_after held cs1 with
    | Some held' => mutex_after held' cs2
    | None => None
    end.
Proof.
  induction cs1 as [| c cs1 IH]; intros held; [reflexivity |].
  destruct c, held; cbn; try reflexivity; apply IH.
Qed.

Lemma tasks_created_app (cs1 cs2 : list call) :
  tasks_created (cs1 ++ cs2) = (tasks_created cs1 + tasks_created cs2)%nat.
Proof.
  induction cs1 as [| c cs1 IH]; [reflexivity |].
  destruct c; cbn; rewrite IH; reflexivity.
Qed.

(** What [simulate_gpio_change] comes down to, by the handler slot. *)
Lemma simulate_gpio_change_spec (x : Z) (w : world) :
  exec (simulate_gpio_change x) w =
  match static_callback w with
  | Some Gpio_change_callback =>
      exec (gpio_change_callback x) (exec (store_simulated_state x) w)
  | None => exec (store_simulated_state x) w
  end.
Proof.
  unfold simulate_gpio_change, exec, bind. cbn [fst snd load_static_callback
    store_simulated_state static_callback].
  destruct (static_callback w) as [[] |]; reflexivity.
Qed.

(** The calls one operation adds to the record, and what they amount to. *)
Lemma do_op_calls (o : op) (w : world) :
  exists added : list call,
    calls (exec (do_op o) w) = calls w ++ added
    /\ mutex_after false added = Some false
    /\ tasks_created added = (if is_init o then 1 else 0)%nat.
Proof.
  destruct o as [mask | x | x | |]; cbn [do_op is_init].
  - exists [Call_gpio_register_callback Gpio_change_callback;
            Call_rtos_task_create Monitor_task].
    cbn. rewrite <- app_assoc. repeat split.
  - rewrite simulate_gpio_change_spec.
    destruct (static_callback w) as [[] |].
    + unfold exec at 1. rewrite gpio_change_callback_spec. cbn [snd calls].
      eexists. split; [reflexivity |].
      unfold callback_calls. destruct (_ =? 0); split; reflexivity.
    + exists []. cbn. rewrite app_nil_r. repeat split.
  - unfold exec. rewrite gpio_change_callback_spec. cbn [snd calls].
    eexists. split; [reflexivity |].
    unfold callback_calls. destruct (_ =? 0); split; reflexivity.
  - rewrite monitor_task_iteration_spec. cbn [calls].
    eexists. split; [reflexivity |]. split; reflexivity.
  - destruct (drain_fields w) as (_ & _ & _ & El). rewrite El.
    eexists. split; [reflexivity |]. split; reflexivity.
Qed.

(** X6.  Whatever sequence of initialisations, input changes, direct
    notifications, reporter periods and test drains is run, the component
    keeps the locking discipline: it never takes the mutex while holding it,
    never releases it while not holding it, never sleeps, reports, registers
    or creates a task while holding it, and holds nothing when the sequence
    is over. *)
Theorem locking_discipline_kept (os : list op) (w : world) :
  mutex_after false (calls w) = Some false ->
  mutex_after false (calls (exec (do_ops os) w)) = Some false.
Proof.
  revert w. induction os as [| o os IH]; intros w H; [exact H |].
  rewrite do_ops_cons. apply IH.
  destruct (do_op_calls o w) as (added & El & Hm & _).
  rewrite El, mutex_after_app, H. exact Hm.
Qed.

Lemma locking_discipline_kept_witness :
  mutex_after false
    (calls (exec (do_ops [Op_init 0x0F; Op_gpio_change 0x03; Op_period;
                          Op_callback 0x0C; Op_report; Op_init 0xFF])
                 boot_world))
  = Some false.
Proof.
  apply (locking_discipline_kept
           [Op_init 0x0F; Op_gpio_change 0x03; Op_period;
            Op_callback 0x0C; Op_report; Op_init 0xFF] boot_world).
  reflexivity.
Defined.

(** X7.  Every call of [event_monitor_init] creates one more task and no
    other operation creates any: after a sequence of operations the number
    of [rtos_task_create] calls has grown by the number of initialisations
    in it, so a repeated initialisation leaves a second reporter task
    behind. *)
Theorem one_task_per_initialisation (os : list op) (w : world) :
  tasks_created (calls (exec (do_ops os) w)) =
  (tasks_created (calls w) + length (filter is_init os))%nat.
Proof.
  revert w. induction os as [| o os IH]; intros w.
  - cbn. lia.
  - rewrite do_ops_cons, IH.
    destruct (do_op_calls o w) as (added & El & _ & Ht).
    rewrite El, tasks_created_app, Ht. cbn [filter].
    destruct (is_init o); cbn [length]; lia.
Qed.

(** The globals an operation other than an initialisation leaves alone. *)
Lemma do_op_frame (o : op) (w : world) :
  is_init o = false ->
  monitored_mask (exec (do_op o) w) = monitored_mask w
  /\ static_callback (exec (do_op o) w) = static_callback w.
Proof.
  intros H. destruct o as [mask | x | x | |]; cbn [do_op];
    try discriminate H.
  - rewrite simulate_gpio_change_spec.
    destruct (static_callback w) as [[] |] eqn:E.
    + unfold exec at 1 3. rewrite gpio_change_callback_spec. cbn.
      split; [reflexivity | exact E].
    + cbn. split; [reflexivity | exact E].
  - unfold exec. rewrite gpio_change_callback_spec. split; reflexivity.
  - rewrite monitor_task_iteration_spec. split; reflexivity.
  - split; reflexivity.
Qed.

(** X8.  Once set, the monitor mask and the registered handler are never
    written again by anything but [event_monitor_init]: input changes,
    notifications, reporter periods and drains leave both as they were. *)
Theorem mask_and_handler_written_by_init_only (os : list op) (w : world) :
  forallb (fun o => negb (is_init o)) os = true ->
  monitored_mask (exec (do_ops os) w) = monitored_mask w
  /\ static_callback (exec (do_ops os) w) = static_callback w.
Proof.
  revert w. induction os as [| o os IH]; intros w H; [split; reflexivity |].
  cbn [forallb] in H. apply andb_prop in H. destruct H as [Ho Hos].
  apply negb_true_iff in Ho.
  rewrite do_ops_cons.
  destruct (IH (exec (do_op o) w) Hos) as [Em Ec].
  destruct (do_op_frame o w Ho) as [Em' Ec'].
  rewrite Em, Ec, Em', Ec'. split; reflexivity.
Qed.

Lemma mask_and_handler_written_by_init_only_witness :
  let w := exec (event_monitor_init 0x0F) boot_world in
  monitored_mask
    (exec (do_ops [Op_gpio_change 0xFF; Op_period; Op_callback 0x00;
                   Op_report]) w) = 0x0F.
Proof.
  intros w.
  destruct (mask_and_handler_written_by_init_only
              [Op_gpio_change 0xFF; Op_period; Op_callback 0x00; Op_report] w)
    as [E _].
  - reflexivity.
  - rewrite E. reflexivity.
Defined.

(** ** The input source and the handler slot *)

Lemma store_simulated_state_same (w : world) :
  exec (store_simulated_state (simulated_state w)) w = w.
Proof. destruct w. reflexivity. Qed.

(** X9.  While no handler is registered (before the first initialisation,
    or after [reset_test_state]), input changes are dropped: a sequence of
    them only moves the input source's state to the last sample; the
    counter, the previous sample and the record of calls are untouched. *)
Theorem changes_without_handler_are_dropped (xs : list Z) (w : world) :
  static_callback w = None ->
  exec (do_ops (map Op_gpio_change xs)) w =
  exec (store_simulated_state (last xs (simulated_state w))) w.
Proof.
  revert w. induction xs as [| x xs IH]; intros w H.
  - cbn [map last]. rewrite store_simulated_state_same. reflexivity.
  - cbn [map]. rewrite do_ops_cons. cbn [do_op].
    rewrite simulate_gpio_change_spec, H.
    rewrite IH by exact H.
    rewrite last_cons. reflexivity.
Qed.

Lemma changes_without_handler_are_dropped_witness :
  exec (do_ops (map Op_gpio_change [0x01; 0xFF; 0x10])) boot_world =
  mkWorld 0 0 0 0x10 None [].
Proof.
  rewrite (changes_without_handler_are_dropped [0x01; 0xFF; 0x10] boot_world).
  - reflexivity.
  - reflexivity.
Defined.

Lemma do_op_tracking (o : op) (w : world) :
  is_direct_callback o = false ->
  (is_init o = true \/ tracking w) ->
  tracking (exec (do_op o) w).
Proof.
  intros Hd Ht. destruct o as [mask | x | x | |]; cbn [do_op];
    try discriminate Hd.
  - split; reflexivity.
  - destruct Ht as [Hi | [Hc Hp]]; [discriminate Hi |].
    rewrite simulate_gpio_change_spec, Hc.
    unfold exec at 1. rewrite gpio_change_callback_spec.
    split; [exact Hc | reflexivity].
  - destruct Ht as [Hi | Ht]; [discriminate Hi |].
    rewrite monitor_task_iteration_spec. exact Ht.
  - destruct Ht as [Hi | Ht]; [discriminate Hi |]. exact Ht.
Qed.

(** X10.  From the first initialisation on, as long as input changes reach
    the component through the input source (no direct call of the
    callback), the stored previous sample is always the input source's
    current state and the handler stays registered, through any further
    input changes, reporter periods, drains and re-initialisations. *)
Theorem previous_sample_tracks_input (mask : Z) (os : list op) (w : world) :
  forallb (fun o => negb (is_direct_callback o)) os = true ->
  let w' := exec (do_ops (Op_init mask :: os)) w in
  previous_state w' = simulated_state w'
  /\ static_callback w' = Some Gpio_change_callback.
Proof.
  intros H w'.
  assert (G : forall os v,
             forallb (fun o => negb (is_direct_callback o)) os = true ->
             tracking v -> tracking (exec (do_ops os) v)).
  { clear. induction os as [| o os IH]; intros v H Hv; [exact Hv |].
    cbn [forallb] in H. apply andb_prop in H. destruct H as [Ho Hos].
    apply negb_true_iff in Ho.
    rewrite do_ops_cons. apply IH; [exact Hos |].
    apply do_op_tracking; [exact Ho | right; exact Hv]. }
  destruct (G os (exec (event_monitor_init mask) w) H) as [Hc Hp].
  - split; reflexivity.
  - split; [exact Hp | exact Hc].
Qed.

Lemma previous_sample_tracks_input_witness :
  let w' := exec (do_ops [Op_init 0x0F; Op_gpio_change 0x03; Op_period;
                          Op_init 0xF0; Op_gpio_change 0x30; Op_report])
                 boot_world in
  previous_state w' = 0x30 /\ simulated_state w' = 0x30.
Proof.
  intros w'.
  destruct (previous_sample_tracks_input 0x0F
              [Op_gpio_change 0x03; Op_period; Op_init 0xF0;
               Op_gpio_change 0x30; Op_report] boot_world) as [E _].
  - reflexivity.
  - fold w' in E. rewrite E. split; reflexivity.
Defined.

(** ** Where counted events go *)

Lemma do_op_conserves (o : op) (w : world) :
  is_notification o = false ->
  total_reported (exec (do_op o) w) + event_count (exec (do_op o) w)
  = total_reported w + event_count w.
Proof.
  intros H. destruct o as [mask | x | x | |]; cbn [do_op];
    try discriminate H; unfold total_reported.
  - cbn. rewrite <- app_assoc, reported_values_app. cbn.
    rewrite app_nil_r. reflexivity.
  - rewrite monitor_task_iteration_spec. cbn [calls event_count].
    rewrite reported_values_app, sum_list_app. cbn. lia.
  - destruct (drain_fields w) as (Ec & _ & _ & El). rewrite Ec, El.
    rewrite reported_values_app, sum_list_app. cbn. lia.
Qed.

(** X11.  Initialisations, reporter periods and drains neither lose nor
    invent events: over any sequence of them the sum of everything reported
    plus the counter is exactly what it was, with no condition on overflow.
    What a drain takes out of the counter is what it reports. *)
Theorem drains_conserve_events (os : list op) (w : world) :
  forallb (fun o => negb (is_notification o)) os = true ->
  total_reported (exec (do_ops os) w) + event_count (exec (do_ops os) w)
  = total_reported w + event_count w.
Proof.
  revert w. induction os as [| o os IH]; intros w H; [reflexivity |].
  cbn [forallb] in H. apply andb_prop in H. destruct H as [Ho Hos].
  apply negb_true_iff in Ho.
  rewrite do_ops_cons, IH by exact Hos. apply do_op_conserves. exact Ho.
Qed.

Lemma drains_conserve_events_witness :
  let w := mkWorld 9 0x0F 0 0 None [Call_report_event_count 4] in
  let w' := exec (do_ops [Op_period; Op_init 0xFF; Op_report; Op_period]) w in
  total_reported w' + event_count w' = 13.
Proof.
  intros w w'.
  unfold w'.
  rewrite (drains_conserve_events
             [Op_period; Op_init 0xFF; Op_report; Op_period] w).
  - reflexivity.
  - reflexivity.
Defined.

Lemma contributions_bound (acts : list action) :
  forall prev mask : Z,
    0 <= sum_list (contributions acts prev mask)
      <= 32 * Z.of_nat (length acts).
Proof.
  induction acts as [| a acts IH]; intros prev mask.
  - cbn. lia.
  - destruct a as [x |]; cbn [contributions length].
    + pose proof (popcount_le_32 _ (rising_edges_range prev x mask)) as Hp.
      specialize (IH x mask). unfold sum_list in *. cbn [fold_right]. lia.
    + specialize (IH prev mask). lia.
Qed.

(** X12.  A notification counts at most 32 events, so as long as the
    counter plus 32 per notification stays below [2^32] nothing wraps: the
    counter then holds its old value plus the exact sum of the
    contributions, and that is the value the next drain of the task
    reads. *)
Theorem few_notifications_count_exactly (xs : list Z) (w : world) :
  0 <= event_count w ->
  event_count w + 32 * Z.of_nat (length xs) < modulus ->
  let total := sum_list (contributions (map Notify xs) (previous_state w)
                           (monitored_mask w)) in
  event_count (exec (notify_all xs) w) = event_count w + total
  /\ eval monitor_task_drain (exec (notify_all xs) w) = event_count w + total
  /\ 0 <= total <= 32 * Z.of_nat (length xs).
Proof.
  intros H0 Hlt total.
  pose proof (contributions_bound (map Notify xs) (previous_state w)
                (monitored_mask w)) as Hb.
  rewrite length_map in Hb. fold total in Hb.
  assert (Hc : is_uint32 (event_count w)) by (unfold is_uint32; lia).
  destruct (notify_all_fields xs w Hc) as (Ec & _).
  fold total in Ec.
  assert (E : event_count (exec (notify_all xs) w) = event_count w + total).
  { rewrite Ec. apply uint32_small. unfold is_uint32. lia. }
  repeat split; try lia. exact E.
Qed.

Lemma few_notifications_count_exactly_witness :
  let w := exec (event_monitor_init 0xFF) boot_world in
  eval monitor_task_drain (exec (notify_all [0x0F; 0x00; 0xFF]) w) = 12.
Proof.
  intros w.
  destruct (few_notifications_count_exactly [0x0F; 0x00; 0xFF] w)
    as (_ & E & _).
  - cbn. lia.
  - unfold modulus. cbn. lia.
  - rewrite E. reflexivity.
Defined.

(** ** What a test of the suite observes *)

(** Input changes delivered through a registered handler count as direct
    notifications do. *)
Lemma gpio_changes_fields (xs : list Z) :
  forall w : world,
    static_callback w = Some Gpio_change_callback ->
    is_uint32 (event_count w) ->
    let w' := exec (do_ops (map Op_gpio_change xs)) w in
    event_count w' =
      uint32 (event_count w
              + sum_list (contributions (map Notify xs)
                            (previous_state w) (monitored_mask w)))
    /\ reported_values (calls w') = reported_values (calls w).
Proof.
  induction xs as [| x xs IH]; intros w Hcb Hc.
  - cbn. rewrite Z.add_0_r, uint32_small by exact Hc. split; reflexivity.
  - cbn [map]. rewrite do_ops_cons. cbn [do_op].
    rewrite simulate_gpio_change_spec, Hcb.
    set (w0 := exec (store_simulated_state x) w).
    assert (Hc0 : is_uint32 (event_count w0)) by exact Hc.
    destruct (notify_fields x w0 Hc0) as (Ec & Em & Ep & Er).
    set (w1 := exec (gpio_change_callback x) w0) in *.
    assert (Hcb1 : static_callback w1 = Some Gpio_change_callback).
    { unfold w1, exec. rewrite gpio_change_callback_spec. exact Hcb. }
    assert (Hc1 : is_uint32 (event_count w1)).
    { rewrite Ec. apply uint32_range. }
    destruct (IH w1 Hcb1 Hc1) as (Ec' & Er').
    cbv zeta. rewrite Ec', Er', Ec, Em, Ep, Er.
    change (event_count w0) with (event_count w).
    change (previous_state w0) with (previous_state w).
    change (monitored_mask w0) with (monitored_mask w).
    change (calls w0) with (calls w).
    split; [| reflexivity].
    unfold add32.
    rewrite <- (Z.add_0_l (uint32 _ + _)), Z.add_assoc, uint32_add_inner.
    f_equal. cbn [contributions sum_list fold_right]. unfold sum_list. lia.
Qed.

Lemma suite_changes (xs : list Z) :
  forall s : Suite.suite,
    fold_left (fun t x => Suite.simulate_gpio_change x t) xs s =
    Suite.mkSuite (exec (do_ops (map Op_gpio_change xs)) (Suite.monitor s))
                  (Suite.total_events_counted s)
                  (Suite.tests_passed s) (Suite.tests_failed s).
Proof.
  induction xs as [| x xs IH]; intros s.
  - destruct s. reflexivity.
  - cbn [fold_left map]. rewrite IH. reflexivity.
Qed.

(** X13.  What a test of the suite measures does not depend on what ran
    before it: after [reset_test_state] and [event_monitor_init (mask)] the
    total handed to [check_test_result] is the sum, modulo [2^32], of the
    rising edges of the monitored lines along the samples, counted from an
    all-low input.  The test increments [tests_passed] when the expected
    value is that sum and [tests_failed] otherwise, never both, and leaves
    the counter drained. *)
Theorem test_outcome (mask expected : Z) (samples : list Z)
    (s : Suite.suite) :
  Suite.tests_passed s < Suite.INT_MAX ->
  Suite.tests_failed s < Suite.INT_MAX ->
  let oracle := uint32 (sum_list (contributions (map Notify samples) 0 mask)) in
  let s' := Suite.run_test mask samples expected s in
  Suite.total_events_counted s' = oracle
  /\ event_count (Suite.monitor s') = 0
  /\ Suite.tests_passed s' =
     Suite.tests_passed s + (if expected =? oracle then 1 else 0)
  /\ Suite.tests_failed s' =
     Suite.tests_failed s + (if expected =? oracle then 0 else 1).
Proof.
  intros _ _ oracle s'.
  unfold s', Suite.run_test. cbv zeta. rewrite suite_changes.
  set (s2 := Suite.on_monitor (event_monitor_init mask)
               (Suite.reset_test_state s)).
  assert (Hcb : static_callback (Suite.monitor s2)
                = Some Gpio_change_callback) by reflexivity.
  assert (Hc : is_uint32 (event_count (Suite.monitor s2))).
  { unfold is_uint32, modulus. cbn. lia. }
  destruct (gpio_changes_fields samples (Suite.monitor s2) Hcb Hc)
    as (Ec & _).
  change (event_count (Suite.monitor s2)) with 0 in Ec.
  change (previous_state (Suite.monitor s2)) with 0 in Ec.
  change (monitored_mask (Suite.monitor s2)) with mask in Ec.
  rewrite Z.add_0_l in Ec. fold oracle in Ec.
  set (w3 := exec (do_ops (map Op_gpio_change samples)) (Suite.monitor s2))
    in *.
  unfold Suite.trigger_event_report_for_test, Suite.report_event_count,
    Suite.check_test_result, Suite.on_monitor.
  cbn [Suite.monitor Suite.total_events_counted Suite.tests_passed
       Suite.tests_failed].
  change (event_count (exec rtos_mutex_lock w3)) with (event_count w3).
  change (Suite.total_events_counted s2) with 0.
  change (Suite.tests_passed s2) with (Suite.tests_passed s).
  change (Suite.tests_failed s2) with (Suite.tests_failed s).
  rewrite Ec.
  assert (Et : add32 0 oracle = oracle).
  { unfold add32. rewrite Z.add_0_l. apply uint32_small.
    unfold oracle. apply uint32_range. }
  rewrite Et.
  destruct (expected =? oracle); cbn; repeat split; lia.
Qed.

Lemma test_outcome_witness :
  let s := Suite.mkSuite
             (mkWorld 77 0xFF 0x3C 0x3C None [Call_report_event_count 9])
             123 2 1 in
  let s' := Suite.run_test 0x0F [0x00; 0x03; 0x07; 0x07; 0x05; 0x0F] 5 s in
  Suite.total_events_counted s' = 5
  /\ Suite.tests_passed s' = 3
  /\ Suite.tests_failed s' = 1.
Proof.
  intros s s'.
  destruct (test_outcome 0x0F 5 [0x00; 0x03; 0x07; 0x07; 0x05; 0x0F] s)
    as (Et & _ & Ep & Ef).
  - unfold Suite.INT_MAX. cbn. lia.
  - unfold Suite.INT_MAX. cbn. lia.
  - fold s' in Et, Ep, Ef. rewrite Et, Ep, Ef. repeat split.
Defined.
